(** * Exposure queries of [vw::camera::ExifView] (src/vw/Camera/Exif.cc)

    A shallow embedding of the EXIF accessors of the Vision Workbench camera
    module, and the properties of their fallback chains.

    - C++ [double] is IEEE 754 binary64, i.e. Rocq's primitive [float]; the
      arithmetic operators, the comparisons and [sqrt] are the primitive
      (correctly rounded) ones, every intermediate result being a binary64.
      Decimal literals such as [25.4] or [0.01] are rounded to the nearest
      binary64 value, as a C++ compiler does.
    - [pow], [log] and [hypot] come from <math.h>; they are not part of the
      sources and are an interface, [MathH], of which nothing is assumed.
    - the enumerators [EXIF_...] come from Exif.h, which is not part of the
      sources either: they are the interface [ExifTags].
    - a C++ function that may throw [ExifErr] returns a [result]; an output
      parameter [T& value] is the value returned.
    - the constructor, which imports a file, and [get_thumbnail_location],
      which needs the layout of that file, are left out. *)

From Stdlib Require Import ZArith NArith String Ascii List Bool Floats Lia DecimalString DecimalN.
Import ListNotations.

Set Warnings "-inexact-float".

Open Scope string_scope.

(** ** Machine types *)

Definition uint16 := N.
Definition int := Z.
Definition double := float.

(** [std::ostream << uint16]: the decimal digits of the tag. *)
Definition show_uint16 (tag : uint16) : string :=
  NilEmpty.string_of_uint (N.to_uint tag).

(** ** Exceptions *)

(** [ExifErr] is the only exception class of the file; it carries the message
    that was streamed into it. *)
Record ExifErr : Type := mkExifErr { desc : string }.

Inductive result (A : Type) : Type :=
| Return (a : A)
| Throw (e : ExifErr).
Arguments Return {A} a.
Arguments Throw {A} e.

Definition vw_throw {A : Type} (e : ExifErr) : result A := Throw e.

Definition bind {A B : Type} (m : result A) (k : A -> result B) : result B :=
  match m with
  | Return a => k a
  | Throw e => Throw e
  end.

(** [try { body } catch (ExifErr &e) { handler }] *)
Definition try_catch {A : Type} (body : result A) (handler : ExifErr -> result A)
  : result A :=
  match body with
  | Return a => Return a
  | Throw e => handler e
  end.

Declare Scope exif_scope.
Delimit Scope exif_scope with exif.
Notation "x <- m ;; k" := (bind m (fun x => k))
  (at level 61, m at next level, right associativity) : exif_scope.
Notation "'try' b 'catch' h" := (try_catch b (fun _ => h))
  (at level 62, b at level 61, h at level 62) : exif_scope.

Definition throws {A : Type} (r : result A) : bool :=
  match r with
  | Return _ => false
  | Throw _ => true
  end.

(** ** The tag store *)

(** Modelled from the spec: the class [ExifData] of the member [m_data] is the
    external tag store and is not part of the sources.  Its three overloads of
    [bool get_tag_value(tag, T& value)] either fill [value] and answer [true],
    or answer [false] and leave [value] alone; they are the three lookups
    below.  Nothing relates the three overloads to each other. *)
Record ExifData : Type := mkExifData {
  get_tag_value_int : uint16 -> option int;
  get_tag_value_double : uint16 -> option double;
  get_tag_value_string : uint16 -> option string
}.

Record ExifView : Type := mkExifView { m_data : ExifData }.

(** The enumerators of Exif.h that Exif.cc names. *)
Class ExifTags : Type := {
  EXIF_Make : uint16;
  EXIF_Model : uint16;
  EXIF_ExposureTime : uint16;
  EXIF_FNumber : uint16;
  EXIF_ISOSpeedRatings : uint16;
  EXIF_ShutterSpeedValue : uint16;
  EXIF_ApertureValue : uint16;
  EXIF_BrightnessValue : uint16;
  EXIF_FocalLength : uint16;
  EXIF_ExposureIndex : uint16;
  EXIF_FocalLengthIn35mmFilm : uint16;
  EXIF_PixelXDimension : uint16;
  EXIF_PixelYDimension : uint16;
  EXIF_FocalPlaneXResolution : uint16;
  EXIF_FocalPlaneYResolution : uint16;
  EXIF_FocalPlaneResolutionUnit : uint16
}.

(** The functions of <math.h> that Exif.cc calls, besides [sqrt]. *)
Class MathH : Type := {
  pow : double -> double -> double;
  log : double -> double;
  hypot : double -> double -> double
}.

(** ** The queries *)

Section ExifView.

Context {tags : ExifTags} {math : MathH}.

Open Scope float_scope.
Open Scope exif_scope.

Definition err_read_int (tag : uint16) : ExifErr :=
  mkExifErr ("Could not read EXIF tag " ++ show_uint16 tag ++ ".").

Definition err_read (tag : uint16) : ExifErr :=
  mkExifErr ("Could not read EXIF tag: " ++ show_uint16 tag ++ ".").

Definition query_by_tag_int (self : ExifView) (tag : uint16) : result int :=
  match get_tag_value_int (m_data self) tag with
  | Some value => Return value
  | None => vw_throw (err_read_int tag)
  end.

Definition query_by_tag_double (self : ExifView) (tag : uint16) : result double :=
  match get_tag_value_double (m_data self) tag with
  | Some value => Return value
  | None => vw_throw (err_read tag)
  end.

Definition query_by_tag_string (self : ExifView) (tag : uint16) : result string :=
  match get_tag_value_string (m_data self) tag with
  | Some value => Return value
  | None => vw_throw (err_read tag)
  end.

Definition get_make (self : ExifView) : result string :=
  query_by_tag_string self EXIF_Make.

Definition get_model (self : ExifView) : result string :=
  query_by_tag_string self EXIF_Model.

Definition get_f_number (self : ExifView) : result double :=
  try query_by_tag_double self EXIF_FNumber
  catch (value <- query_by_tag_double self EXIF_ApertureValue ;;
         Return (pow 2.0 (value * 0.5))).

Definition get_exposure_time (self : ExifView) : result double :=
  try query_by_tag_double self EXIF_ExposureTime
  catch (value <- query_by_tag_double self EXIF_ShutterSpeedValue ;;
         Return (pow 2.0 (- value))).

Definition get_iso (self : ExifView) : result double :=
  try query_by_tag_double self EXIF_ISOSpeedRatings
  catch (value <- query_by_tag_double self EXIF_ExposureIndex ;;
         Return value).

Definition err_x_resolution : ExifErr :=
  mkExifErr "Illegal value for FocalPlaneXResolution".
Definition err_y_resolution : ExifErr :=
  mkExifErr "Illegal value for FocalPlaneYResolution".
Definition err_resolution_unit : ExifErr :=
  mkExifErr "Illegal value for FocalPlaneResolutionUnit".
Definition err_diagonal : ExifErr :=
  mkExifErr "Illegal value while computing 35mm equiv focal length".

(** Lines 139-145: the sensor diagonal and the scaled focal length. *)
Definition sensor_diagonal_in_mm
    (focal_plane_resolution_unit_in_mm : double)
    (pixel_x_dimension pixel_y_dimension : double)
    (focal_plane_x_resolution focal_plane_y_resolution : double) : double :=
  let x_pixel_size_in_mm := focal_plane_resolution_unit_in_mm / focal_plane_x_resolution in
  let y_pixel_size_in_mm := focal_plane_resolution_unit_in_mm / focal_plane_y_resolution in
  let sensor_width_in_mm := x_pixel_size_in_mm * pixel_x_dimension in
  let sensor_height_in_mm := y_pixel_size_in_mm * pixel_y_dimension in
  hypot sensor_width_in_mm sensor_height_in_mm.

Definition scale_to_35mm (focal_length diagonal : double) : result double :=
  if diagonal =? 0 then vw_throw err_diagonal
  else Return (focal_length * sqrt (36 * 36 + 24 * 24) / diagonal).

(** Lines 126-138: the unit of the focal plane resolutions, in millimetres. *)
Definition focal_plane_resolution_unit_in_mm (self : ExifView) : result double :=
  let focal_plane_resolution_unit :=
    match query_by_tag_int self EXIF_FocalPlaneResolutionUnit with
    | Return unit => unit
    | Throw _ => 2%Z
    end in
  match focal_plane_resolution_unit with
  | 2%Z => Return 25.4
  | 3%Z => Return 10
  | _ => vw_throw err_resolution_unit
  end.

(** Lines 115-145, after the comment "Compute from various other statistics". *)
Definition compute_from_other_statistics (self : ExifView) : result double :=
  focal_length <- query_by_tag_double self EXIF_FocalLength ;;
  pixel_x_dimension <- query_by_tag_double self EXIF_PixelXDimension ;;
  pixel_y_dimension <- query_by_tag_double self EXIF_PixelYDimension ;;
  focal_plane_x_resolution <- query_by_tag_double self EXIF_FocalPlaneXResolution ;;
  if focal_plane_x_resolution <=? 0 then vw_throw err_x_resolution else
  focal_plane_y_resolution <- query_by_tag_double self EXIF_FocalPlaneYResolution ;;
  if focal_plane_y_resolution <=? 0 then vw_throw err_y_resolution else
  unit_in_mm <- focal_plane_resolution_unit_in_mm self ;;
  scale_to_35mm focal_length
    (sensor_diagonal_in_mm unit_in_mm pixel_x_dimension pixel_y_dimension
       focal_plane_x_resolution focal_plane_y_resolution).

(** The [return] inside the [try] block leaves the function; an exception or
    a value that is not [> 0] falls through to the computation. *)
Definition get_focal_length_35mm_equiv (self : ExifView) : result double :=
  match query_by_tag_double self EXIF_FocalLengthIn35mmFilm with
  | Return value =>
      if 0 <? value then Return value else compute_from_other_statistics self
  | Throw _ => compute_from_other_statistics self
  end.

Definition get_aperture_value (self : ExifView) : result double :=
  try query_by_tag_double self EXIF_ApertureValue
  catch (value <- query_by_tag_double self EXIF_FNumber ;;
         Return (2 * log value / log 2)).

Definition get_time_value (self : ExifView) : result double :=
  try query_by_tag_double self EXIF_ShutterSpeedValue
  catch (value <- query_by_tag_double self EXIF_ExposureTime ;;
         Return (log (1 / value) / log 2)).

(** C++ leaves the order of the two calls open; they read the store only, so
    the order shows in nothing but which exception is seen when both throw.
    [get_exposure_value] calls the left operand first, [get_exposure_value_rl]
    the right one. *)
Definition get_exposure_value (self : ExifView) : result double :=
  tv <- get_time_value self ;;
  av <- get_aperture_value self ;;
  Return (tv + av).

Definition get_exposure_value_rl (self : ExifView) : result double :=
  av <- get_aperture_value self ;;
  tv <- get_time_value self ;;
  Return (tv + av).

Definition get_film_speed_value (self : ExifView) : result double :=
  iso <- get_iso self ;;
  let N := 1 / 3.125 in
  Return (log (iso * N) / log 2).

Definition err_brightness : ExifErr :=
  mkExifErr "Insufficient EXIF information to compute brightness value.".

Definition get_luminance_value (self : ExifView) : result double :=
  try query_by_tag_double self EXIF_BrightnessValue
  catch (try (Av <- get_aperture_value self ;;
              Tv <- get_time_value self ;;
              Sv <- get_film_speed_value self ;;
              Return (Av + Tv - Sv))
         catch vw_throw err_brightness).

Definition err_luminance : ExifErr :=
  mkExifErr "Insufficient EXIF information to compute average scene luminance.".

Definition get_average_luminance (self : ExifView) : result double :=
  let K := 12.5 in
  try (A <- get_f_number self ;;
       T <- get_exposure_time self ;;
       S <- get_iso self ;;
       let B := (A * A * K) / (T * S) in
       Return B)
  catch vw_throw err_luminance.

(** Lines 119-124: the tags the computation cannot do without, in the order
    in which they are read. *)
Definition mandatory_tags : list uint16 :=
  [EXIF_FocalLength; EXIF_PixelXDimension; EXIF_PixelYDimension;
   EXIF_FocalPlaneXResolution; EXIF_FocalPlaneYResolution].

(** [FocalLengthIn35mmFilm] is absent, or holds a value that is not [> 0]:
    line 112 does not return. *)
Definition takes_computed_path (self : ExifView) : bool :=
  match get_tag_value_double (m_data self) EXIF_FocalLengthIn35mmFilm with
  | Some value => negb (0 <? value)
  | None => true
  end.

End ExifView.

(** The view of the store of [self] from which the floating-point entry [tag]
    has been erased. *)
Definition without_double (tag : uint16) (self : ExifView) : ExifView :=
  mkExifView
    (mkExifData
       (get_tag_value_int (m_data self))
       (fun t => if N.eqb t tag then None else get_tag_value_double (m_data self) t)
       (get_tag_value_string (m_data self))).

(** ** The three kinds of failure *)

(** The queries throw the one class [ExifErr]; what tells a missing tag from
    an exhausted computation or from an illegal value is the message.  The
    three families of messages of Exif.cc are the three kinds of failure. *)
Inductive ErrorKind : Type :=
| TagNotFound
| InsufficientData
| InvalidValue.

Definition error_kind (e : ExifErr) : option ErrorKind :=
  if prefix "Could not read EXIF tag" (desc e) then Some TagNotFound
  else if prefix "Insufficient EXIF information" (desc e) then Some InsufficientData
  else if prefix "Illegal value" (desc e) then Some InvalidValue
  else None.

(** The 35mm query ends with an exception of the kind TagNotFound. *)
Definition fails_with_tag_not_found {tags : ExifTags} {math : MathH}
    (self : ExifView) : Prop :=
  exists e, get_focal_length_35mm_equiv self = Throw e
            /\ error_kind e = Some TagNotFound.

(** ** The round trip between the aperture value and the f-number *)

(** [x] is [y] up to [tol]: the test [fabs(x - y) <= tol]. *)
Definition within (x y tol : double) : bool := (abs (x - y) <=? tol)%float.

(** The correctly rounded binary64 logarithms of 2 and of 4. *)
Definition ln_2 : float := 0x1.62e42fefa39efp-1.
Definition ln_4 : float := 0x1.62e42fefa39efp+0.

Section RoundTrip.

Context {tags : ExifTags} {math : MathH}.

(** From an aperture value to an f-number and back: [get_f_number] converts
    the ApertureValue entry [Av] of a store without FNumber (line 80), and
    [get_aperture_value] converts the result, as the FNumber entry of a store
    without ApertureValue (line 156), into something within [tol] of [Av]. *)
Definition aperture_value_round_trips (tol : double) : Prop :=
  forall (self1 self2 : ExifView) (Av N Av' : double),
    get_tag_value_double (m_data self1) EXIF_FNumber = None ->
    get_tag_value_double (m_data self1) EXIF_ApertureValue = Some Av ->
    get_f_number self1 = Return N ->
    get_tag_value_double (m_data self2) EXIF_ApertureValue = None ->
    get_tag_value_double (m_data self2) EXIF_FNumber = Some N ->
    get_aperture_value self2 = Return Av' ->
    within Av' Av tol = true.

(** The same from an f-number to an aperture value and back. *)
Definition f_number_round_trips (tol : double) : Prop :=
  forall (self1 self2 : ExifView) (N Av N' : double),
    get_tag_value_double (m_data self1) EXIF_ApertureValue = None ->
    get_tag_value_double (m_data self1) EXIF_FNumber = Some N ->
    get_aperture_value self1 = Return Av ->
    get_tag_value_double (m_data self2) EXIF_FNumber = None ->
    get_tag_value_double (m_data self2) EXIF_ApertureValue = Some Av ->
    get_f_number self2 = Return N' ->
    within N' N tol = true.

End RoundTrip.

(** ** Worked stores *)

Module Example.

(** The tag numbers of the EXIF 2.2 standard. *)
#[export] Instance exif22 : ExifTags := {|
  EXIF_Make := 0x010F%N;
  EXIF_Model := 0x0110%N;
  EXIF_ExposureTime := 0x829A%N;
  EXIF_FNumber := 0x829D%N;
  EXIF_ISOSpeedRatings := 0x8827%N;
  EXIF_ShutterSpeedValue := 0x9201%N;
  EXIF_ApertureValue := 0x9202%N;
  EXIF_BrightnessValue := 0x9203%N;
  EXIF_FocalLength := 0x920A%N;
  EXIF_ExposureIndex := 0xA215%N;
  EXIF_FocalLengthIn35mmFilm := 0xA405%N;
  EXIF_PixelXDimension := 0xA002%N;
  EXIF_PixelYDimension := 0xA003%N;
  EXIF_FocalPlaneXResolution := 0xA20E%N;
  EXIF_FocalPlaneYResolution := 0xA20F%N;
  EXIF_FocalPlaneResolutionUnit := 0xA210%N
|}.

Open Scope float_scope.

(** A small <math.h> for the worked stores, defined where they need it and
    NaN elsewhere: [pow x y] for an integral [y] between -63 and 63, by
    repeated multiplication; [log x] for [x] a power of two between 2^-63 and
    2^63, as a multiple of the binary64 nearest to ln 2; and the textbook
    [hypot]. *)
Fixpoint pow_search (fuel : nat) (k acc y x : float) : float :=
  match fuel with
  | O => nan
  | S fuel' =>
      if y =? k then acc
      else if y =? - k then 1 / acc
      else pow_search fuel' (k + 1) (acc * x) y x
  end.

Definition ln2 : float := 0x1.62e42fefa39efp-1.

Fixpoint log_search (fuel : nat) (k p x : float) : float :=
  match fuel with
  | O => nan
  | S fuel' =>
      if x =? p then k * ln2
      else if x =? 1 / p then - k * ln2
      else log_search fuel' (k + 1) (p * 2) x
  end.

#[export] Instance table_math : MathH := {|
  pow x y := pow_search 64 0 1 y x;
  log x := log_search 64 0 1 x;
  hypot x y := sqrt (x * x + y * y)
|}.

Fixpoint assoc {V : Type} (l : list (uint16 * V)) (tag : uint16) : option V :=
  match l with
  | [] => None
  | (t, v) :: l' => if N.eqb t tag then Some v else assoc l' tag
  end.

(** The view of the store that holds the listed integer and floating-point
    entries and nothing else. *)
Definition view (ints : list (uint16 * int)) (doubles : list (uint16 * double))
  : ExifView :=
  mkExifView (mkExifData (assoc ints) (assoc doubles) (fun _ => None)).

Definition direct_store : ExifView :=
  view [] [(EXIF_FNumber, 4); (EXIF_ExposureTime, 0.01); (EXIF_ISOSpeedRatings, 100)].

Definition apex_store : ExifView :=
  view [] [(EXIF_ApertureValue, 4); (EXIF_ShutterSpeedValue, 8)].

Definition film_store : ExifView :=
  view [] [(EXIF_FNumber, 4); (EXIF_ExposureTime, 0.25); (EXIF_ExposureIndex, 100)].

Definition brightness_store : ExifView :=
  view [] [(EXIF_BrightnessValue, 7.5)].

Definition empty_store : ExifView := view [] [].

Definition sensor_entries : list (uint16 * double) :=
  [(EXIF_FocalLength, 50); (EXIF_PixelXDimension, 4000); (EXIF_PixelYDimension, 3000);
   (EXIF_FocalPlaneXResolution, 4000); (EXIF_FocalPlaneYResolution, 3000)].

Definition sensor_store (unit : int) : ExifView :=
  view [(EXIF_FocalPlaneResolutionUnit, unit)] sensor_entries.

Definition unitless_sensor_store : ExifView := view [] sensor_entries.

Definition film35_store (value : double) : ExifView :=
  view [(EXIF_FocalPlaneResolutionUnit, 2%Z)]
       ((EXIF_FocalLengthIn35mmFilm, value) :: sensor_entries).

Definition no_y_resolution_store (x_resolution : double) : ExifView :=
  view [] [(EXIF_FocalLength, 50); (EXIF_PixelXDimension, 4000);
           (EXIF_PixelYDimension, 3000); (EXIF_FocalPlaneXResolution, x_resolution)].

Definition zero_time_store : ExifView :=
  view [] [(EXIF_FNumber, 4); (EXIF_ExposureTime, 0); (EXIF_ISOSpeedRatings, 100)].

Definition aperture_only_store (Av : double) : ExifView :=
  view [] [(EXIF_ApertureValue, Av)].

Definition f_number_only_store (N : double) : ExifView :=
  view [] [(EXIF_FNumber, N)].

Definition shutter_store : ExifView := view [] [(EXIF_ShutterSpeedValue, 3)].

Definition negative_y_store : ExifView :=
  view [(EXIF_FocalPlaneResolutionUnit, 5%Z)]
       [(EXIF_FocalLength, 50); (EXIF_PixelXDimension, 4000);
        (EXIF_PixelYDimension, 3000); (EXIF_FocalPlaneXResolution, 4000);
        (EXIF_FocalPlaneYResolution, -3000)].

Definition pixelless_store : ExifView :=
  view [] [(EXIF_FocalLength, 50); (EXIF_PixelXDimension, 0);
           (EXIF_PixelYDimension, 0); (EXIF_FocalPlaneXResolution, 4000);
           (EXIF_FocalPlaneYResolution, 3000)].

End Example.

(** * Properties *)

Section Properties.

Context {tags : ExifTags} {math : MathH}.

Open Scope float_scope.

(** ** The lookups *)

Lemma query_by_tag_double_found self tag value :
  get_tag_value_double (m_data self) tag = Some value ->
  query_by_tag_double self tag = Return value.
Proof. unfold query_by_tag_double; now intros ->. Qed.

Lemma query_by_tag_double_missing self tag :
  get_tag_value_double (m_data self) tag = None ->
  query_by_tag_double self tag = Throw (err_read tag).
Proof. unfold query_by_tag_double; now intros ->. Qed.

Lemma query_by_tag_int_found self tag value :
  get_tag_value_int (m_data self) tag = Some value ->
  query_by_tag_int self tag = Return value.
Proof. unfold query_by_tag_int; now intros ->. Qed.

Lemma query_by_tag_int_missing self tag :
  get_tag_value_int (m_data self) tag = None ->
  query_by_tag_int self tag = Throw (err_read_int tag).
Proof. unfold query_by_tag_int; now intros ->. Qed.

(** Rewrites every lookup whose outcome is a hypothesis. *)
Ltac lookups :=
  repeat match goal with
    | H : get_tag_value_double _ _ = Some _ |- _ =>
        rewrite (query_by_tag_double_found _ _ _ H)
    | H : get_tag_value_double _ _ = None |- _ =>
        rewrite (query_by_tag_double_missing _ _ H)
    | H : get_tag_value_int _ _ = Some _ |- _ =>
        rewrite (query_by_tag_int_found _ _ _ H)
    | H : get_tag_value_int _ _ = None |- _ =>
        rewrite (query_by_tag_int_missing _ _ H)
    end.

(** ** The kinds of the messages *)

Lemma error_kind_err_read tag : error_kind (err_read tag) = Some TagNotFound.
Proof. reflexivity. Qed.

Lemma error_kind_err_read_int tag : error_kind (err_read_int tag) = Some TagNotFound.
Proof. reflexivity. Qed.

(** ** Fallback chains *)

(** C6: [get_f_number] hands back the FNumber entry untouched whenever there
    is one, whatever else the store holds; without it, an ApertureValue entry
    [Av] gives [pow(2.0, Av * 0.5)], which for [Av = 4] is [pow(2.0, 2.0)],
    that is 4.0 for a [pow] that is exact there; without either entry the
    exception of the second lookup, "Could not read EXIF tag: <ApertureValue>.",
    leaves the function. *)
Theorem f_number_fallback (self : ExifView) :
  (forall value,
      get_tag_value_double (m_data self) EXIF_FNumber = Some value ->
      get_f_number self = Return value)
  /\ (get_tag_value_double (m_data self) EXIF_FNumber = None ->
      (forall Av,
          get_tag_value_double (m_data self) EXIF_ApertureValue = Some Av ->
          get_f_number self = Return (pow 2 (Av * 0.5)))
      /\ (get_tag_value_double (m_data self) EXIF_ApertureValue = Some 4 ->
          get_f_number self = Return (pow 2 2)
          /\ (pow 2 2 = 4 -> get_f_number self = Return 4))
      /\ (get_tag_value_double (m_data self) EXIF_ApertureValue = None ->
          get_f_number self = Throw (err_read EXIF_ApertureValue)
          /\ error_kind (err_read EXIF_ApertureValue) = Some TagNotFound)).
Proof.
  unfold get_f_number. split.
  - intros value H. lookups. reflexivity.
  - intros Hf. split; [| split].
    + intros Av Ha. lookups. reflexivity.
    + intros Ha. lookups. split; [reflexivity |].
      intros Hpow. simpl. f_equal. exact Hpow.
    + intros Ha. lookups. split; reflexivity.
Qed.

(** ** Composite queries *)

(** C7: [get_exposure_value] is the sum of the time value and the aperture
    value whenever both are resolved, e.g. 12 for ShutterSpeedValue = 8 and
    ApertureValue = 4, and it throws exactly when one of the two sub-queries
    throws; the order in which C++ calls the two operands changes neither. *)
Theorem exposure_value_sum (self : ExifView) :
  (forall Tv Av,
      get_time_value self = Return Tv ->
      get_aperture_value self = Return Av ->
      get_exposure_value self = Return (Tv + Av)
      /\ get_exposure_value_rl self = Return (Tv + Av))
  /\ throws (get_exposure_value self)
     = throws (get_time_value self) || throws (get_aperture_value self)
  /\ throws (get_exposure_value_rl self) = throws (get_exposure_value self)
  /\ (get_tag_value_double (m_data self) EXIF_ShutterSpeedValue = Some 8 ->
      get_tag_value_double (m_data self) EXIF_ApertureValue = Some 4 ->
      get_exposure_value self = Return 12).
Proof.
  unfold get_exposure_value, get_exposure_value_rl.
  split; [| split; [| split]].
  - intros Tv Av -> ->. split; reflexivity.
  - destruct (get_time_value self), (get_aperture_value self); reflexivity.
  - destruct (get_time_value self), (get_aperture_value self); reflexivity.
  - intros Ht Ha. unfold get_time_value, get_aperture_value. lookups. reflexivity.
Qed.

(** C1: whenever [get_f_number], [get_exposure_time] and [get_iso] resolve to
    [A], [T] and [S], [get_average_luminance] returns [(A*A*12.5)/(T*S)], which
    is 200 for 4, 0.01 and 100; whenever one of the three throws, it throws
    "Insufficient EXIF information to compute average scene luminance." (the
    message of the code ends in a full stop), which is of the kind
    InsufficientData and is the message of no missing tag. *)
Theorem average_luminance_formula (self : ExifView) :
  (forall A T S,
      get_f_number self = Return A ->
      get_exposure_time self = Return T ->
      get_iso self = Return S ->
      get_average_luminance self = Return ((A * A * 12.5) / (T * S)))
  /\ (get_f_number self = Return 4 ->
      get_exposure_time self = Return 0.01 ->
      get_iso self = Return 100 ->
      get_average_luminance self = Return 200)
  /\ (throws (get_f_number self) || throws (get_exposure_time self)
        || throws (get_iso self) = true ->
      get_average_luminance self = Throw err_luminance)
  /\ err_luminance
     = mkExifErr
         ("Insufficient EXIF information to compute average scene luminance" ++ ".")
  /\ error_kind err_luminance = Some InsufficientData
  /\ (forall tag, err_luminance <> err_read tag).
Proof.
  unfold get_average_luminance.
  split; [| split; [| split; [| split; [| split]]]].
  - intros A T S -> -> ->. reflexivity.
  - intros -> -> ->. reflexivity.
  - destruct (get_f_number self), (get_exposure_time self), (get_iso self);
      simpl; intros H; try discriminate H; reflexivity.
  - reflexivity.
  - reflexivity.
  - intros tag H. discriminate H.
Qed.

(** C2: [get_luminance_value] returns the BrightnessValue entry when there is
    one; without it, it returns [Av + Tv - Sv] for the aperture value, time
    value and film speed value that the three sub-queries resolve; and when
    one of the three throws, it throws "Insufficient EXIF information to
    compute brightness value." (the message of the code ends in a full stop),
    of the kind InsufficientData, which is the message of no missing tag. *)
Theorem luminance_value_fallback (self : ExifView) :
  (forall Bv,
      get_tag_value_double (m_data self) EXIF_BrightnessValue = Some Bv ->
      get_luminance_value self = Return Bv)
  /\ (get_tag_value_double (m_data self) EXIF_BrightnessValue = None ->
      (forall Av Tv Sv,
          get_aperture_value self = Return Av ->
          get_time_value self = Return Tv ->
          get_film_speed_value self = Return Sv ->
          get_luminance_value self = Return (Av + Tv - Sv))
      /\ (throws (get_aperture_value self) || throws (get_time_value self)
            || throws (get_film_speed_value self) = true ->
          get_luminance_value self = Throw err_brightness))
  /\ err_brightness
     = mkExifErr ("Insufficient EXIF information to compute brightness value" ++ ".")
  /\ error_kind err_brightness = Some InsufficientData
  /\ (forall tag, err_brightness <> err_read tag).
Proof.
  unfold get_luminance_value.
  split; [| split; [| split; [| split]]].
  - intros Bv H. lookups. reflexivity.
  - intros H. lookups. split.
    + intros Av Tv Sv -> -> ->. reflexivity.
    + destruct (get_aperture_value self), (get_time_value self),
        (get_film_speed_value self);
        simpl; intros H'; try discriminate H'; reflexivity.
  - reflexivity.
  - reflexivity.
  - intros tag H. discriminate H.
Qed.

(** X1: [get_exposure_time] hands back the ExposureTime entry whenever there
    is one; without it, a ShutterSpeedValue entry [Tv] gives [pow(2.0, -Tv)];
    without either, the exception of the ShutterSpeedValue lookup leaves the
    function. *)
Lemma exposure_time_fallback (self : ExifView) :
  (forall value,
      get_tag_value_double (m_data self) EXIF_ExposureTime = Some value ->
      get_exposure_time self = Return value)
  /\ (get_tag_value_double (m_data self) EXIF_ExposureTime = None ->
      (forall Tv,
          get_tag_value_double (m_data self) EXIF_ShutterSpeedValue = Some Tv ->
          get_exposure_time self = Return (pow 2 (- Tv)))
      /\ (get_tag_value_double (m_data self) EXIF_ShutterSpeedValue = None ->
          get_exposure_time self = Throw (err_read EXIF_ShutterSpeedValue))).
Proof.
  unfold get_exposure_time. split.
  - intros value H. lookups. reflexivity.
  - intros H. split; intros; lookups; reflexivity.
Qed.

(** X2: [get_iso] hands back the ISOSpeedRatings entry whenever there is
    one; without it, the ExposureIndex entry, unchanged; without either, the
    exception of the ExposureIndex lookup leaves the function. *)
Lemma iso_fallback (self : ExifView) :
  (forall value,
      get_tag_value_double (m_data self) EXIF_ISOSpeedRatings = Some value ->
      get_iso self = Return value)
  /\ (get_tag_value_double (m_data self) EXIF_ISOSpeedRatings = None ->
      (forall value,
          get_tag_value_double (m_data self) EXIF_ExposureIndex = Some value ->
          get_iso self = Return value)
      /\ (get_tag_value_double (m_data self) EXIF_ExposureIndex = None ->
          get_iso self = Throw (err_read EXIF_ExposureIndex))).
Proof.
  unfold get_iso. split.
  - intros value H. lookups. reflexivity.
  - intros H. split; intros; lookups; reflexivity.
Qed.

(** X3: [get_aperture_value] hands back the ApertureValue entry whenever
    there is one; without it, an FNumber entry [N] gives
    [2 * log(N) / log(2.)]; without either, the exception of the FNumber
    lookup leaves the function. *)
Lemma aperture_value_fallback (self : ExifView) :
  (forall value,
      get_tag_value_double (m_data self) EXIF_ApertureValue = Some value ->
      get_aperture_value self = Return value)
  /\ (get_tag_value_double (m_data self) EXIF_ApertureValue = None ->
      (forall N,
          get_tag_value_double (m_data self) EXIF_FNumber = Some N ->
          get_aperture_value self = Return (2 * log N / log 2))
      /\ (get_tag_value_double (m_data self) EXIF_FNumber = None ->
          get_aperture_value self = Throw (err_read EXIF_FNumber))).
Proof.
  unfold get_aperture_value. split.
  - intros value H. lookups. reflexivity.
  - intros H. split; intros; lookups; reflexivity.
Qed.

(** X4: [get_time_value] hands back the ShutterSpeedValue entry whenever
    there is one; without it, an ExposureTime entry [T] gives
    [log(1/T) / log(2.)]; without either, the exception of the ExposureTime
    lookup leaves the function. *)
Lemma time_value_fallback (self : ExifView) :
  (forall value,
      get_tag_value_double (m_data self) EXIF_ShutterSpeedValue = Some value ->
      get_time_value self = Return value)
  /\ (get_tag_value_double (m_data self) EXIF_ShutterSpeedValue = None ->
      (forall T,
          get_tag_value_double (m_data self) EXIF_ExposureTime = Some T ->
          get_time_value self = Return (log (1 / T) / log 2))
      /\ (get_tag_value_double (m_data self) EXIF_ExposureTime = None ->
          get_time_value self = Throw (err_read EXIF_ExposureTime))).
Proof.
  unfold get_time_value. split.
  - intros value H. lookups. reflexivity.
  - intros H. split; intros; lookups; reflexivity.
Qed.

(** ** Binary64 facts *)

Lemma Prim2SF_zero : Prim2SF 0 = S754_zero false.
Proof. reflexivity. Qed.

Lemma eqb_zero_inv (x : float) :
  (x =? 0) = true -> exists s, Prim2SF x = S754_zero s.
Proof.
  rewrite eqb_spec, Prim2SF_zero. unfold SFeqb.
  destruct (Prim2SF x) as [s | s | | s m e]; simpl; try discriminate; eauto.
  all: destruct s; discriminate.
Qed.

Lemma is_finite_nan (x : float) : Prim2SF x = S754_nan -> is_finite x = false.
Proof.
  intros H. unfold is_finite, is_nan. rewrite eqb_spec, H. reflexivity.
Qed.

Lemma is_finite_infinity (x : float) s :
  Prim2SF x = S754_infinity s -> is_finite x = false.
Proof.
  intros H. unfold is_finite, is_nan, is_infinity.
  rewrite !eqb_spec, abs_spec, H. destruct s; reflexivity.
Qed.

(** A product with a zero factor is a zero or a NaN. *)
Lemma mul_zero_factor (x y : float) :
  (x =? 0) || (y =? 0) = true ->
  (exists s, Prim2SF (x * y) = S754_zero s) \/ Prim2SF (x * y) = S754_nan.
Proof.
  intros H. rewrite mul_spec. unfold SF64mul, SFmul.
  apply orb_true_iff in H. destruct H as [H | H];
    apply eqb_zero_inv in H; destruct H as [s ->].
  - destruct (Prim2SF y); eauto.
  - destruct (Prim2SF x); eauto.
Qed.

(** Nothing divided by a zero or by a NaN is a finite number. *)
Lemma div_zero_not_finite (n d : float) :
  (exists s, Prim2SF d = S754_zero s) \/ Prim2SF d = S754_nan ->
  is_finite (n / d) = false.
Proof.
  intros H.
  assert (Hq : Prim2SF (n / d) = S754_nan \/ exists s, Prim2SF (n / d) = S754_infinity s).
  { rewrite div_spec. unfold SF64div, SFdiv.
    destruct H as [[s ->] | ->]; destruct (Prim2SF n); eauto. }
  destruct Hq as [Hq | [s Hq]].
  - now apply is_finite_nan.
  - now apply is_finite_infinity with s.
Qed.

Lemma ltb_zero_asym (x : float) : (x <? 0) = true -> (0 <? x) = false.
Proof.
  rewrite !ltb_spec, Prim2SF_zero. unfold SFltb.
  destruct (Prim2SF x) as [s | s | | s m e]; simpl; try discriminate.
  all: destruct s; simpl; congruence.
Qed.

(** C10: nothing guards the divisor of [get_average_luminance]: when the three
    inputs resolve and the exposure time or the ISO is a zero, the division is
    carried out and its quotient, which is an infinity or a NaN, is returned;
    no exception leaves the function. *)
Theorem average_luminance_unguarded_division (self : ExifView) (A T S : double) :
  get_f_number self = Return A ->
  get_exposure_time self = Return T ->
  get_iso self = Return S ->
  (T =? 0) || (S =? 0) = true ->
  get_average_luminance self = Return ((A * A * 12.5) / (T * S))
  /\ throws (get_average_luminance self) = false
  /\ is_finite ((A * A * 12.5) / (T * S)) = false.
Proof.
  intros HA HT HS Hzero.
  assert (H : get_average_luminance self = Return ((A * A * 12.5) / (T * S))).
  { unfold get_average_luminance. rewrite HA, HT, HS. reflexivity. }
  split; [exact H | split].
  - rewrite H. reflexivity.
  - apply div_zero_not_finite, mul_zero_factor, Hzero.
Qed.

(** ** The 35mm equivalent focal length *)

Lemma direct_path_taken (self : ExifView) (value : double) :
  get_tag_value_double (m_data self) EXIF_FocalLengthIn35mmFilm = Some value ->
  (0 <? value) = true ->
  get_focal_length_35mm_equiv self = Return value.
Proof.
  intros H Hpos. unfold get_focal_length_35mm_equiv. lookups. now rewrite Hpos.
Qed.

Lemma computed_path_taken (self : ExifView) :
  takes_computed_path self = true ->
  get_focal_length_35mm_equiv self = compute_from_other_statistics self.
Proof.
  unfold takes_computed_path, get_focal_length_35mm_equiv, query_by_tag_double.
  destruct (get_tag_value_double (m_data self) EXIF_FocalLengthIn35mmFilm) as [v |];
    [| reflexivity].
  destruct (0 <? v); [discriminate | reflexivity].
Qed.

(** Once the five mandatory entries are read and both resolutions pass their
    test, what is left is the unit and the scaling. *)
Lemma compute_reaches_unit (self : ExifView) (fl px py xr yr : double) :
  get_tag_value_double (m_data self) EXIF_FocalLength = Some fl ->
  get_tag_value_double (m_data self) EXIF_PixelXDimension = Some px ->
  get_tag_value_double (m_data self) EXIF_PixelYDimension = Some py ->
  get_tag_value_double (m_data self) EXIF_FocalPlaneXResolution = Some xr ->
  get_tag_value_double (m_data self) EXIF_FocalPlaneYResolution = Some yr ->
  (xr <=? 0) = false ->
  (yr <=? 0) = false ->
  compute_from_other_statistics self
  = bind (focal_plane_resolution_unit_in_mm self)
      (fun unit_in_mm =>
         scale_to_35mm fl (sensor_diagonal_in_mm unit_in_mm px py xr yr)).
Proof.
  intros Hfl Hpx Hpy Hxr Hyr Hx Hy. unfold compute_from_other_statistics.
  lookups. simpl. rewrite Hx, Hy. reflexivity.
Qed.

(** C3: a FocalLengthIn35mmFilm entry that is [> 0] is returned as it is; a
    stored 0 is no error and counts as no entry.  On the computed path, with
    the five mandatory entries present, both resolutions passing their test,
    a valid unit and a diagonal that is not zero, the result is
    [focal_length * sqrt(36*36 + 24*24) / hypot(w, h)] for
    [w = unit_mm / x_resolution * pixel_x_dimension] and
    [h = unit_mm / y_resolution * pixel_y_dimension]; for the entries
    50, 4000, 3000, 4000, 3000 and unit 2 that is
    [50 * sqrt(1872) / hypot(25.4, 25.4)]. *)
Theorem focal_length_35mm_equiv_value (self : ExifView) :
  (forall value,
      get_tag_value_double (m_data self) EXIF_FocalLengthIn35mmFilm = Some value ->
      (0 <? value) = true ->
      get_focal_length_35mm_equiv self = Return value)
  /\ (get_tag_value_double (m_data self) EXIF_FocalLengthIn35mmFilm = Some 0
      \/ get_tag_value_double (m_data self) EXIF_FocalLengthIn35mmFilm = None ->
      get_focal_length_35mm_equiv self = compute_from_other_statistics self)
  /\ (takes_computed_path self = true ->
      (forall fl px py xr yr unit_mm,
          get_tag_value_double (m_data self) EXIF_FocalLength = Some fl ->
          get_tag_value_double (m_data self) EXIF_PixelXDimension = Some px ->
          get_tag_value_double (m_data self) EXIF_PixelYDimension = Some py ->
          get_tag_value_double (m_data self) EXIF_FocalPlaneXResolution = Some xr ->
          get_tag_value_double (m_data self) EXIF_FocalPlaneYResolution = Some yr ->
          (xr <=? 0) = false ->
          (yr <=? 0) = false ->
          focal_plane_resolution_unit_in_mm self = Return unit_mm ->
          (hypot (unit_mm / xr * px) (unit_mm / yr * py) =? 0) = false ->
          get_focal_length_35mm_equiv self
          = Return (fl * sqrt (36 * 36 + 24 * 24)
                    / hypot (unit_mm / xr * px) (unit_mm / yr * py)))
      /\ (get_tag_value_double (m_data self) EXIF_FocalLength = Some 50 ->
          get_tag_value_double (m_data self) EXIF_PixelXDimension = Some 4000 ->
          get_tag_value_double (m_data self) EXIF_PixelYDimension = Some 3000 ->
          get_tag_value_double (m_data self) EXIF_FocalPlaneXResolution = Some 4000 ->
          get_tag_value_double (m_data self) EXIF_FocalPlaneYResolution = Some 3000 ->
          get_tag_value_int (m_data self) EXIF_FocalPlaneResolutionUnit = Some 2%Z ->
          (hypot 25.4 25.4 =? 0) = false ->
          get_focal_length_35mm_equiv self
          = Return (50 * sqrt 1872 / hypot 25.4 25.4))).
Proof.
  split; [| split].
  - intros value H Hpos. now apply direct_path_taken.
  - intros H. apply computed_path_taken. unfold takes_computed_path.
    destruct H as [-> | ->]; reflexivity.
  - intros Hpath. rewrite (computed_path_taken self Hpath). split.
    + intros fl px py xr yr unit_mm Hfl Hpx Hpy Hxr Hyr Hx Hy Hunit Hdiag.
      rewrite (compute_reaches_unit self fl px py xr yr) by assumption.
      rewrite Hunit. unfold bind, scale_to_35mm, sensor_diagonal_in_mm.
      rewrite Hdiag. reflexivity.
    + intros Hfl Hpx Hpy Hxr Hyr Hunit Hdiag.
      rewrite (compute_reaches_unit self 50 4000 3000 4000 3000)
        by (assumption || reflexivity).
      unfold focal_plane_resolution_unit_in_mm. lookups.
      unfold bind, scale_to_35mm.
      change (sensor_diagonal_in_mm 25.4 4000 3000 4000 3000) with (hypot 25.4 25.4).
      rewrite Hdiag. reflexivity.
Qed.

(** C5: on the computed path, once the five mandatory entries are read and
    both resolutions pass their test, a missing FocalPlaneResolutionUnit entry
    stands for code 2; code 2 is 25.4 mm, code 3 is 10.0 mm, and every other
    code, 5 for one, throws "Illegal value for FocalPlaneResolutionUnit", of
    the kind InvalidValue. *)
Theorem resolution_unit_cases (self : ExifView) (fl px py xr yr : double) :
  takes_computed_path self = true ->
  get_tag_value_double (m_data self) EXIF_FocalLength = Some fl ->
  get_tag_value_double (m_data self) EXIF_PixelXDimension = Some px ->
  get_tag_value_double (m_data self) EXIF_PixelYDimension = Some py ->
  get_tag_value_double (m_data self) EXIF_FocalPlaneXResolution = Some xr ->
  get_tag_value_double (m_data self) EXIF_FocalPlaneYResolution = Some yr ->
  (xr <=? 0) = false ->
  (yr <=? 0) = false ->
  (get_tag_value_int (m_data self) EXIF_FocalPlaneResolutionUnit = None ->
   focal_plane_resolution_unit_in_mm self = Return 25.4
   /\ get_focal_length_35mm_equiv self
      = scale_to_35mm fl (sensor_diagonal_in_mm 25.4 px py xr yr))
  /\ (get_tag_value_int (m_data self) EXIF_FocalPlaneResolutionUnit = Some 2%Z ->
      focal_plane_resolution_unit_in_mm self = Return 25.4
      /\ get_focal_length_35mm_equiv self
         = scale_to_35mm fl (sensor_diagonal_in_mm 25.4 px py xr yr))
  /\ (get_tag_value_int (m_data self) EXIF_FocalPlaneResolutionUnit = Some 3%Z ->
      focal_plane_resolution_unit_in_mm self = Return 10
      /\ get_focal_length_35mm_equiv self
         = scale_to_35mm fl (sensor_diagonal_in_mm 10 px py xr yr))
  /\ (forall unit,
         get_tag_value_int (m_data self) EXIF_FocalPlaneResolutionUnit = Some unit ->
         unit <> 2%Z -> unit <> 3%Z ->
         get_focal_length_35mm_equiv self = Throw err_resolution_unit)
  /\ (get_tag_value_int (m_data self) EXIF_FocalPlaneResolutionUnit = Some 5%Z ->
      get_focal_length_35mm_equiv self = Throw err_resolution_unit)
  /\ error_kind err_resolution_unit = Some InvalidValue.
Proof.
  intros Hpath Hfl Hpx Hpy Hxr Hyr Hx Hy.
  rewrite (computed_path_taken self Hpath).
  rewrite (compute_reaches_unit self fl px py xr yr) by assumption.
  assert (Hother : forall unit,
             get_tag_value_int (m_data self) EXIF_FocalPlaneResolutionUnit = Some unit ->
             unit <> 2%Z -> unit <> 3%Z ->
             focal_plane_resolution_unit_in_mm self = Throw err_resolution_unit).
  { intros unit Hu H2 H3. unfold focal_plane_resolution_unit_in_mm. lookups.
    destruct unit as [| p | p]; try reflexivity.
    destruct p as [[p | p |] | [p | p |] |]; try reflexivity; congruence. }
  unfold focal_plane_resolution_unit_in_mm.
  split; [| split; [| split; [| split; [| split]]]].
  - intros Hu. lookups. split; reflexivity.
  - intros Hu. lookups. split; reflexivity.
  - intros Hu. lookups. split; reflexivity.
  - intros unit Hu H2 H3.
    fold (focal_plane_resolution_unit_in_mm self).
    rewrite (Hother unit Hu H2 H3). reflexivity.
  - intros Hu. fold (focal_plane_resolution_unit_in_mm self).
    rewrite (Hother 5%Z Hu) by discriminate. reflexivity.
  - reflexivity.
Qed.

(** Closes the case in which [tag], which comes after [before], is the first
    mandatory entry that the computation fails to read. *)
Ltac missing_first before tag :=
  lookups; simpl;
  split; [reflexivity | split];
  [ intros _; split;
    [ exists before, tag; eexists;
      split; [reflexivity |];
      split; [repeat constructor; congruence |];
      split; [assumption | reflexivity]
    | eexists; split; reflexivity ]
  | intros; discriminate ].

(** C4 (amended): on the computed path, a store that lacks one of the five
    mandatory entries makes the query throw.  The exception is that of the
    lookup of the first missing mandatory tag, of the kind TagNotFound,
    whenever FocalLength, PixelXDimension or PixelYDimension is missing, or
    FocalPlaneXResolution is missing or passes its test; when the first four
    are present and FocalPlaneXResolution is [<= 0], FocalPlaneYResolution is
    never read and the exception is "Illegal value for FocalPlaneXResolution",
    of the kind InvalidValue. *)
Theorem mandatory_tags_missing (self : ExifView) :
  takes_computed_path self = true ->
  (exists tag, In tag mandatory_tags
               /\ get_tag_value_double (m_data self) tag = None) ->
  throws (get_focal_length_35mm_equiv self) = true
  /\ (get_tag_value_double (m_data self) EXIF_FocalLength = None
      \/ get_tag_value_double (m_data self) EXIF_PixelXDimension = None
      \/ get_tag_value_double (m_data self) EXIF_PixelYDimension = None
      \/ (forall xr,
             get_tag_value_double (m_data self) EXIF_FocalPlaneXResolution = Some xr ->
             (xr <=? 0) = false) ->
      (exists before tag after,
          mandatory_tags = (before ++ tag :: after)%list
          /\ Forall (fun t => get_tag_value_double (m_data self) t <> None) before
          /\ get_tag_value_double (m_data self) tag = None
          /\ get_focal_length_35mm_equiv self = Throw (err_read tag))
      /\ fails_with_tag_not_found self)
  /\ (forall fl px py xr,
         get_tag_value_double (m_data self) EXIF_FocalLength = Some fl ->
         get_tag_value_double (m_data self) EXIF_PixelXDimension = Some px ->
         get_tag_value_double (m_data self) EXIF_PixelYDimension = Some py ->
         get_tag_value_double (m_data self) EXIF_FocalPlaneXResolution = Some xr ->
         (xr <=? 0) = true ->
         get_focal_length_35mm_equiv self = Throw err_x_resolution
         /\ error_kind err_x_resolution = Some InvalidValue).
Proof.
  intros Hpath [tag [Hin Hmiss]].
  unfold fails_with_tag_not_found.
  rewrite (computed_path_taken self Hpath).
  unfold compute_from_other_statistics, mandatory_tags in *.
  destruct (get_tag_value_double (m_data self) EXIF_FocalLength) as [fl |] eqn:Hfl;
    [| now missing_first (@nil uint16) EXIF_FocalLength].
  destruct (get_tag_value_double (m_data self) EXIF_PixelXDimension) as [px |] eqn:Hpx;
    [| now missing_first [EXIF_FocalLength] EXIF_PixelXDimension].
  destruct (get_tag_value_double (m_data self) EXIF_PixelYDimension) as [py |] eqn:Hpy;
    [| now missing_first [EXIF_FocalLength; EXIF_PixelXDimension] EXIF_PixelYDimension].
  destruct (get_tag_value_double (m_data self) EXIF_FocalPlaneXResolution) as [xr |] eqn:Hxr;
    [| now missing_first [EXIF_FocalLength; EXIF_PixelXDimension; EXIF_PixelYDimension]
         EXIF_FocalPlaneXResolution].
  assert (Hyr : get_tag_value_double (m_data self) EXIF_FocalPlaneYResolution = None).
  { simpl in Hin. destruct Hin as [<- | [<- | [<- | [<- | [<- | []]]]]]; congruence. }
  lookups. simpl. destruct (xr <=? 0) eqn:Hx.
  - split; [reflexivity | split].
    + intros [H | [H | [H | H]]]; try discriminate H.
      specialize (H xr eq_refl). congruence.
    + intros fl' px' py' xr' _ _ _ _ _. split; reflexivity.
  - split; [reflexivity | split].
    + intros _. split.
      * exists [EXIF_FocalLength; EXIF_PixelXDimension; EXIF_PixelYDimension;
                EXIF_FocalPlaneXResolution], EXIF_FocalPlaneYResolution, [].
        split; [reflexivity |].
        split; [repeat constructor; congruence |].
        split; [assumption | reflexivity].
      * eexists. split; reflexivity.
    + intros fl' px' py' xr' _ _ _ H Hx'. injection H as <-. congruence.
Qed.

Lemma compute_without_double (self : ExifView) (tag : uint16) :
  ~ In tag mandatory_tags ->
  compute_from_other_statistics (without_double tag self)
  = compute_from_other_statistics self.
Proof.
  intros Hnot. unfold mandatory_tags in Hnot. simpl in Hnot.
  assert (H : forall t, In t mandatory_tags -> N.eqb t tag = false).
  { intros t Ht. apply N.eqb_neq. intros ->. apply Hnot. exact Ht. }
  unfold compute_from_other_statistics, focal_plane_resolution_unit_in_mm,
    query_by_tag_double, query_by_tag_int, without_double. simpl.
  rewrite !H by (unfold mandatory_tags; simpl; tauto).
  reflexivity.
Qed.

(** C9: a FocalLengthIn35mmFilm entry that is negative, and more generally
    any entry that is not [> 0], is neither returned nor complained about:
    the query goes on to the computed path, and its outcome is the one it has
    on the store without that entry. *)
Theorem nonpositive_35mm_entry_is_absent (self : ExifView) (value : double) :
  get_tag_value_double (m_data self) EXIF_FocalLengthIn35mmFilm = Some value ->
  ((value <? 0) = true ->
   get_focal_length_35mm_equiv self = compute_from_other_statistics self
   /\ (~ In EXIF_FocalLengthIn35mmFilm mandatory_tags ->
       get_focal_length_35mm_equiv self
       = get_focal_length_35mm_equiv (without_double EXIF_FocalLengthIn35mmFilm self)))
  /\ ((0 <? value) = false ->
      get_focal_length_35mm_equiv self = compute_from_other_statistics self
      /\ (~ In EXIF_FocalLengthIn35mmFilm mandatory_tags ->
          get_focal_length_35mm_equiv self
          = get_focal_length_35mm_equiv (without_double EXIF_FocalLengthIn35mmFilm self))).
Proof.
  intros Hv.
  assert (Hgen : (0 <? value) = false ->
      get_focal_length_35mm_equiv self = compute_from_other_statistics self
      /\ (~ In EXIF_FocalLengthIn35mmFilm mandatory_tags ->
          get_focal_length_35mm_equiv self
          = get_focal_length_35mm_equiv (without_double EXIF_FocalLengthIn35mmFilm self))).
  { intros Hle.
    assert (Hself : get_focal_length_35mm_equiv self = compute_from_other_statistics self).
    { apply computed_path_taken. unfold takes_computed_path. now rewrite Hv, Hle. }
    split; [exact Hself |].
    intros Hnot. rewrite Hself.
    rewrite (computed_path_taken (without_double EXIF_FocalLengthIn35mmFilm self)).
    - symmetry. now apply compute_without_double.
    - unfold takes_computed_path, without_double. simpl.
      now rewrite N.eqb_refl. }
  split; [| exact Hgen].
  intros Hneg. apply Hgen. now apply ltb_zero_asym.
Qed.

(** ** Which stores a query can answer *)

(** X5: the f-number and the aperture value read the same two entries, the
    exposure time and the time value read the same two entries, and the film
    speed value reads what the ISO reads: each pair is answered on the same
    stores.  Hence the exposure value is answered exactly where f-number and
    exposure time are, and, on a store without BrightnessValue, the luminance
    value exactly where the average luminance is. *)
Theorem availability_coincides (self : ExifView) :
  throws (get_aperture_value self) = throws (get_f_number self)
  /\ throws (get_time_value self) = throws (get_exposure_time self)
  /\ throws (get_film_speed_value self) = throws (get_iso self)
  /\ throws (get_exposure_value self)
     = throws (get_f_number self) || throws (get_exposure_time self)
  /\ (get_tag_value_double (m_data self) EXIF_BrightnessValue = None ->
      throws (get_luminance_value self) = throws (get_average_luminance self)).
Proof.
  unfold get_luminance_value, get_average_luminance, get_exposure_value,
    get_film_speed_value, get_aperture_value, get_time_value, get_f_number,
    get_exposure_time, get_iso, query_by_tag_double.
  split; [| split; [| split; [| split]]].
  - destruct (get_tag_value_double (m_data self) EXIF_ApertureValue),
      (get_tag_value_double (m_data self) EXIF_FNumber); reflexivity.
  - destruct (get_tag_value_double (m_data self) EXIF_ShutterSpeedValue),
      (get_tag_value_double (m_data self) EXIF_ExposureTime); reflexivity.
  - destruct (get_tag_value_double (m_data self) EXIF_ISOSpeedRatings),
      (get_tag_value_double (m_data self) EXIF_ExposureIndex); reflexivity.
  - destruct (get_tag_value_double (m_data self) EXIF_ApertureValue),
      (get_tag_value_double (m_data self) EXIF_FNumber),
      (get_tag_value_double (m_data self) EXIF_ShutterSpeedValue),
      (get_tag_value_double (m_data self) EXIF_ExposureTime); reflexivity.
  - intros ->.
    destruct (get_tag_value_double (m_data self) EXIF_ApertureValue),
      (get_tag_value_double (m_data self) EXIF_FNumber),
      (get_tag_value_double (m_data self) EXIF_ShutterSpeedValue),
      (get_tag_value_double (m_data self) EXIF_ExposureTime),
      (get_tag_value_double (m_data self) EXIF_ISOSpeedRatings),
      (get_tag_value_double (m_data self) EXIF_ExposureIndex); reflexivity.
Qed.

(** X6: [get_film_speed_value] is [log(iso * N) / log(2.)] for the ISO that
    [get_iso] resolves, with [N = 1/3.125], the binary64 0.32; when [get_iso]
    throws, its exception leaves the function untouched, so that a store with
    neither ISOSpeedRatings nor ExposureIndex reports ExposureIndex. *)
Theorem film_speed_value_of_iso (self : ExifView) :
  (forall iso,
      get_iso self = Return iso ->
      get_film_speed_value self = Return (log (iso * 0.32) / log 2))
  /\ (forall e, get_iso self = Throw e -> get_film_speed_value self = Throw e)
  /\ (get_tag_value_double (m_data self) EXIF_ISOSpeedRatings = None ->
      get_tag_value_double (m_data self) EXIF_ExposureIndex = None ->
      get_film_speed_value self = Throw (err_read EXIF_ExposureIndex)).
Proof.
  unfold get_film_speed_value. split; [| split].
  - intros iso ->. reflexivity.
  - intros e ->. reflexivity.
  - intros H1 H2. unfold get_iso. lookups. reflexivity.
Qed.

(** ** Which exceptions a query can throw *)

(** X7: a fallback chain that throws has found neither of its two entries, and
    the exception it throws is the one of the second lookup: it names the
    alternate tag, not the primary one. *)
Theorem chain_failure_names_alternate (self : ExifView) (e : ExifErr) :
  (get_f_number self = Throw e ->
   get_tag_value_double (m_data self) EXIF_FNumber = None
   /\ get_tag_value_double (m_data self) EXIF_ApertureValue = None
   /\ e = err_read EXIF_ApertureValue)
  /\ (get_exposure_time self = Throw e ->
      get_tag_value_double (m_data self) EXIF_ExposureTime = None
      /\ get_tag_value_double (m_data self) EXIF_ShutterSpeedValue = None
      /\ e = err_read EXIF_ShutterSpeedValue)
  /\ (get_iso self = Throw e ->
      get_tag_value_double (m_data self) EXIF_ISOSpeedRatings = None
      /\ get_tag_value_double (m_data self) EXIF_ExposureIndex = None
      /\ e = err_read EXIF_ExposureIndex)
  /\ (get_aperture_value self = Throw e ->
      get_tag_value_double (m_data self) EXIF_ApertureValue = None
      /\ get_tag_value_double (m_data self) EXIF_FNumber = None
      /\ e = err_read EXIF_FNumber)
  /\ (get_time_value self = Throw e ->
      get_tag_value_double (m_data self) EXIF_ShutterSpeedValue = None
      /\ get_tag_value_double (m_data self) EXIF_ExposureTime = None
      /\ e = err_read EXIF_ExposureTime).
Proof.
  unfold get_f_number, get_exposure_time, get_iso, get_aperture_value,
    get_time_value, query_by_tag_double.
  repeat match goal with
    | |- _ /\ _ => split
    | |- context [get_tag_value_double (m_data self) ?t] =>
        destruct (get_tag_value_double (m_data self) t)
    end;
    simpl; intros H; try discriminate H; injection H as <-; auto.
Qed.

(** X8: the composite queries never add a kind of failure of their own to the
    lookups they make, except the two luminance queries, which hide every
    failure behind their one InsufficientData message: whatever
    [get_exposure_value] (in either order of its operands) or
    [get_film_speed_value] throws is the TagNotFound exception of a lookup of
    an alternate tag, and whatever [get_luminance_value] or
    [get_average_luminance] throws is its own message. *)
Theorem composite_failures (self : ExifView) (e : ExifErr) :
  (get_exposure_value self = Throw e \/ get_exposure_value_rl self = Throw e ->
   (e = err_read EXIF_ExposureTime \/ e = err_read EXIF_FNumber)
   /\ error_kind e = Some TagNotFound)
  /\ (get_film_speed_value self = Throw e ->
      e = err_read EXIF_ExposureIndex /\ error_kind e = Some TagNotFound)
  /\ (get_luminance_value self = Throw e ->
      e = err_brightness /\ error_kind e = Some InsufficientData)
  /\ (get_average_luminance self = Throw e ->
      e = err_luminance /\ error_kind e = Some InsufficientData).
Proof.
  split; [| split; [| split]].
  - unfold get_exposure_value, get_exposure_value_rl, get_aperture_value,
      get_time_value, query_by_tag_double.
    destruct (get_tag_value_double (m_data self) EXIF_ApertureValue),
      (get_tag_value_double (m_data self) EXIF_FNumber),
      (get_tag_value_double (m_data self) EXIF_ShutterSpeedValue),
      (get_tag_value_double (m_data self) EXIF_ExposureTime);
      simpl; intros [H | H]; try discriminate H; injection H as <-; auto.
  - unfold get_film_speed_value, get_iso, query_by_tag_double.
    destruct (get_tag_value_double (m_data self) EXIF_ISOSpeedRatings),
      (get_tag_value_double (m_data self) EXIF_ExposureIndex);
      simpl; intros H; try discriminate H; injection H as <-; auto.
  - unfold get_luminance_value, try_catch.
    destruct (query_by_tag_double self EXIF_BrightnessValue); [discriminate |].
    destruct (bind (get_aperture_value self) _); [discriminate |].
    unfold vw_throw. intros H. injection H as <-. auto.
  - unfold get_average_luminance, try_catch.
    destruct (bind (get_f_number self) _); [discriminate |].
    unfold vw_throw. intros H. injection H as <-. auto.
Qed.

(** ** More on the 35mm equivalent focal length *)

(** Splits the store along every lookup and test of the 35mm query. *)
Ltac focal_cases self :=
  unfold get_focal_length_35mm_equiv, compute_from_other_statistics,
    focal_plane_resolution_unit_in_mm, scale_to_35mm, query_by_tag_double,
    query_by_tag_int, vw_throw;
  destruct (get_tag_value_double (m_data self) EXIF_FocalLengthIn35mmFilm)
    as [v35 |] eqn:H35;
  [destruct (0 <? v35) eqn:Hpos |];
  (destruct (get_tag_value_double (m_data self) EXIF_FocalLength)
     as [fl |] eqn:Hfl; cbn [bind];
   [destruct (get_tag_value_double (m_data self) EXIF_PixelXDimension)
      as [px |] eqn:Hpx; cbn [bind];
    [destruct (get_tag_value_double (m_data self) EXIF_PixelYDimension)
       as [py |] eqn:Hpy; cbn [bind];
     [destruct (get_tag_value_double (m_data self) EXIF_FocalPlaneXResolution)
        as [xr |] eqn:Hxr; cbn [bind];
      [destruct (xr <=? 0) eqn:Hx;
       [| destruct (get_tag_value_double (m_data self) EXIF_FocalPlaneYResolution)
            as [yr |] eqn:Hyr; cbn [bind];
          [destruct (yr <=? 0) eqn:Hy;
           [| destruct (get_tag_value_int (m_data self) EXIF_FocalPlaneResolutionUnit)
                as [[| [[p | p |] | [p | p |] |] | p] |] eqn:Hunit;
              cbn [bind] ] |] ] |] |] |] |]).

(** X9: whatever the 35mm query throws is the exception of the lookup of a
    missing mandatory tag, or one of its four "Illegal value" messages: the
    kind is TagNotFound or InvalidValue.  The failed lookups of
    FocalLengthIn35mmFilm and of FocalPlaneResolutionUnit never show. *)
Theorem focal_length_failures_enumerated (self : ExifView) (e : ExifErr) :
  get_focal_length_35mm_equiv self = Throw e ->
  ((exists tag, In tag mandatory_tags
                /\ get_tag_value_double (m_data self) tag = None
                /\ e = err_read tag)
   \/ e = err_x_resolution \/ e = err_y_resolution
   \/ e = err_resolution_unit \/ e = err_diagonal)
  /\ (error_kind e = Some TagNotFound \/ error_kind e = Some InvalidValue)
  /\ (forall tag, e <> err_read_int tag).
Proof.
  assert (Hkinds : forall e',
    ((exists tag, In tag mandatory_tags
                  /\ get_tag_value_double (m_data self) tag = None
                  /\ e' = err_read tag)
     \/ e' = err_x_resolution \/ e' = err_y_resolution
     \/ e' = err_resolution_unit \/ e' = err_diagonal) ->
    (error_kind e' = Some TagNotFound \/ error_kind e' = Some InvalidValue)
    /\ (forall tag, e' <> err_read_int tag)).
  { intros e' [[tag (_ & _ & ->)] | [-> | [-> | [-> | ->]]]];
      (split; [auto | intros t Ht; discriminate Ht]). }
  intros H.
  assert (Hlist :
    (exists tag, In tag mandatory_tags
                 /\ get_tag_value_double (m_data self) tag = None
                 /\ e = err_read tag)
    \/ e = err_x_resolution \/ e = err_y_resolution
    \/ e = err_resolution_unit \/ e = err_diagonal).
  { revert H. focal_cases self;
      repeat match goal with
        | |- context [if ?b then _ else _] => destruct b
        end;
      intros H; try discriminate H; injection H as <-;
      first
        [ left; eexists; split; [| split; [| reflexivity]];
          [unfold mandatory_tags; simpl; tauto | assumption]
        | tauto ]. }
  split; [exact Hlist | now apply Hkinds].
Qed.

(** X10: the tests of the 35mm computation run in the order of the source, and the
    first that fails decides the exception, whatever the store holds for the
    later ones: an illegal FocalPlaneXResolution comes before anything about
    FocalPlaneYResolution, an illegal FocalPlaneYResolution before an unknown
    unit, and the zero diagonal is looked at last. *)
Theorem focal_length_test_order (self : ExifView) (fl px py xr : double) :
  takes_computed_path self = true ->
  get_tag_value_double (m_data self) EXIF_FocalLength = Some fl ->
  get_tag_value_double (m_data self) EXIF_PixelXDimension = Some px ->
  get_tag_value_double (m_data self) EXIF_PixelYDimension = Some py ->
  get_tag_value_double (m_data self) EXIF_FocalPlaneXResolution = Some xr ->
  ((xr <=? 0) = true ->
   get_focal_length_35mm_equiv self = Throw err_x_resolution)
  /\ ((xr <=? 0) = false ->
      forall yr,
        get_tag_value_double (m_data self) EXIF_FocalPlaneYResolution = Some yr ->
        ((yr <=? 0) = true ->
         get_focal_length_35mm_equiv self = Throw err_y_resolution)
        /\ ((yr <=? 0) = false ->
            forall unit_mm,
              focal_plane_resolution_unit_in_mm self = Return unit_mm ->
              (sensor_diagonal_in_mm unit_mm px py xr yr =? 0) = true ->
              get_focal_length_35mm_equiv self = Throw err_diagonal))
  /\ error_kind err_x_resolution = Some InvalidValue
  /\ error_kind err_y_resolution = Some InvalidValue
  /\ error_kind err_diagonal = Some InvalidValue.
Proof.
  intros Hpath Hfl Hpx Hpy Hxr.
  rewrite (computed_path_taken self Hpath).
  split; [| split; [| repeat split]].
  - intros Hx. unfold compute_from_other_statistics. lookups. simpl.
    now rewrite Hx.
  - intros Hx yr Hyr. split.
    + intros Hy. unfold compute_from_other_statistics. lookups. simpl.
      now rewrite Hx, Hy.
    + intros Hy unit_mm Hunit Hdiag.
      rewrite (compute_reaches_unit self fl px py xr yr) by assumption.
      rewrite Hunit. unfold bind, scale_to_35mm. now rewrite Hdiag.
Qed.

(** X11: a value that the 35mm query returns is either the FocalLengthIn35mmFilm
    entry, which is then [> 0], or the scaled focal length of a store that
    holds the five mandatory entries, passes both resolution tests, has 25.4
    or 10 millimetres for its unit and a diagonal that is not zero. *)
Theorem focal_length_result_inversion (self : ExifView) (r : double) :
  get_focal_length_35mm_equiv self = Return r ->
  (get_tag_value_double (m_data self) EXIF_FocalLengthIn35mmFilm = Some r
   /\ (0 <? r) = true)
  \/ (takes_computed_path self = true
      /\ exists fl px py xr yr unit_mm,
          get_tag_value_double (m_data self) EXIF_FocalLength = Some fl
          /\ get_tag_value_double (m_data self) EXIF_PixelXDimension = Some px
          /\ get_tag_value_double (m_data self) EXIF_PixelYDimension = Some py
          /\ get_tag_value_double (m_data self) EXIF_FocalPlaneXResolution = Some xr
          /\ get_tag_value_double (m_data self) EXIF_FocalPlaneYResolution = Some yr
          /\ (xr <=? 0) = false
          /\ (yr <=? 0) = false
          /\ (unit_mm = 25.4 \/ unit_mm = 10)
          /\ (hypot (unit_mm / xr * px) (unit_mm / yr * py) =? 0) = false
          /\ r = fl * sqrt (36 * 36 + 24 * 24)
                 / hypot (unit_mm / xr * px) (unit_mm / yr * py)).
Proof.
  unfold takes_computed_path.
  focal_cases self;
    try (intros H; discriminate H);
    try (intros H; injection H as <-; left; split; [reflexivity | assumption]).
  all: unfold sensor_diagonal_in_mm;
    match goal with
    | |- context [if ?b then _ else _] => destruct b eqn:Hdiag
    end;
    intros H; try discriminate H; injection H as <-;
    right; (split; [reflexivity |]);
    eexists _, _, _, _, _, _;
    repeat (split; [reflexivity || eassumption |]);
    refine (conj _ (conj Hdiag eq_refl));
    ((left; reflexivity) || (right; reflexivity)).
Qed.

(** What [<= 0] lets through: the positive numbers, and NaN. *)
Lemma leb_zero_false_iff (x : float) :
  (x <=? 0) = false <-> (0 <? x) = true \/ is_nan x = true.
Proof.
  unfold is_nan. rewrite leb_spec, ltb_spec, eqb_spec, Prim2SF_zero.
  unfold SFleb, SFltb, SFeqb.
  destruct (Prim2SF x) as [s | s | | s m e]; simpl.
  - split; [discriminate | intros [H | H]; discriminate H].
  - destruct s; simpl; split; auto; intros [H | H]; discriminate H.
  - split; auto.
  - rewrite Z.compare_refl, Pos.compare_cont_refl.
    destruct s; simpl; split; auto; intros [H | H]; discriminate H.
Qed.

(** X12: the two resolution tests reject exactly the values that are neither
    positive nor NaN: zero of either sign, the negative numbers and minus
    infinity.  A NaN resolution is not reported as illegal. *)
Theorem resolution_rejected_iff (self : ExifView) (fl px py xr : double) :
  takes_computed_path self = true ->
  get_tag_value_double (m_data self) EXIF_FocalLength = Some fl ->
  get_tag_value_double (m_data self) EXIF_PixelXDimension = Some px ->
  get_tag_value_double (m_data self) EXIF_PixelYDimension = Some py ->
  get_tag_value_double (m_data self) EXIF_FocalPlaneXResolution = Some xr ->
  (get_focal_length_35mm_equiv self = Throw err_x_resolution
   <-> (0 <? xr) = false /\ is_nan xr = false)
  /\ (forall yr,
         get_tag_value_double (m_data self) EXIF_FocalPlaneYResolution = Some yr ->
         (0 <? xr) = true \/ is_nan xr = true ->
         (get_focal_length_35mm_equiv self = Throw err_y_resolution
          <-> (0 <? yr) = false /\ is_nan yr = false)).
Proof.
  intros Hpath Hfl Hpx Hpy Hxr.
  assert (Hrej : forall x, (x <=? 0) = true <-> (0 <? x) = false /\ is_nan x = false).
  { intros x. pose proof (leb_zero_false_iff x) as H.
    destruct (x <=? 0), (0 <? x), (is_nan x); intuition congruence. }
  rewrite (computed_path_taken self Hpath).
  unfold compute_from_other_statistics. lookups. cbn [bind].
  split.
  - rewrite <- Hrej. destruct (xr <=? 0) eqn:Hx.
    + split; reflexivity.
    + split; [| discriminate].
      unfold focal_plane_resolution_unit_in_mm, scale_to_35mm, query_by_tag_double,
        query_by_tag_int, vw_throw.
      destruct (get_tag_value_double (m_data self) EXIF_FocalPlaneYResolution)
        as [yr |]; cbn [bind]; [| discriminate].
      destruct (yr <=? 0); [discriminate |].
      destruct (get_tag_value_int (m_data self) EXIF_FocalPlaneResolutionUnit)
        as [[| [[p | p |] | [p | p |] |] | p] |];
        cbn [bind]; try discriminate;
        destruct (sensor_diagonal_in_mm _ _ _ _ _ =? 0); discriminate.
  - intros yr Hyr Hx. apply leb_zero_false_iff in Hx.
    lookups. cbn [bind]. rewrite Hx, <- Hrej.
    destruct (yr <=? 0) eqn:Hy.
    + split; reflexivity.
    + split; [| discriminate].
      unfold focal_plane_resolution_unit_in_mm, scale_to_35mm, query_by_tag_int,
        vw_throw.
      destruct (get_tag_value_int (m_data self) EXIF_FocalPlaneResolutionUnit)
        as [[| [[p | p |] | [p | p |] |] | p] |];
        cbn [bind]; try discriminate;
        destruct (sensor_diagonal_in_mm _ _ _ _ _ =? 0); discriminate.
Qed.

(** ** The luminance value and the exposure value *)

(** Binary64 addition commutes. *)
Lemma float_add_comm (x y : float) : x + y = y + x.
Proof.
  apply Prim2SF_inj. rewrite !add_spec. unfold SF64add, SFadd.
  destruct (Prim2SF x) as [sx | sx | | sx mx ex],
    (Prim2SF y) as [sy | sy | | sy my ey];
    try reflexivity; try (destruct sx, sy; reflexivity).
  cbv zeta. rewrite (Z.min_comm ey ex). f_equal. apply Z.add_comm.
Qed.

(** X13: without a BrightnessValue entry, the luminance value is the exposure
    value minus the film speed value, bit for bit: [Av + Tv] of the one and
    [Tv + Av] of the other are the same binary64. *)
Theorem luminance_from_exposure_value (self : ExifView) (Ev Sv : double) :
  get_tag_value_double (m_data self) EXIF_BrightnessValue = None ->
  get_exposure_value self = Return Ev ->
  get_film_speed_value self = Return Sv ->
  get_luminance_value self = Return (Ev - Sv)
  /\ get_exposure_value_rl self = Return Ev.
Proof.
  intros Hb. unfold get_luminance_value, get_exposure_value, get_exposure_value_rl.
  lookups.
  destruct (get_time_value self) as [Tv | e]; [| discriminate].
  destruct (get_aperture_value self) as [Av | e]; [| discriminate].
  simpl. intros H ->. injection H as <-.
  rewrite (float_add_comm Av Tv). split; reflexivity.
Qed.

(** ** The exception of a failed lookup *)

Lemma append_dot_inj (s1 s2 : string) :
  (s1 ++ ".")%string = (s2 ++ ".")%string -> s1 = s2.
Proof.
  revert s2. induction s1 as [| c s1 IH]; intros [| d s2] H; simpl in H.
  - reflexivity.
  - injection H as _ H. destruct s2; discriminate H.
  - injection H as _ H. destruct s1; discriminate H.
  - injection H as -> H. f_equal. now apply IH.
Qed.

Lemma show_uint16_inj (t1 t2 : uint16) : show_uint16 t1 = show_uint16 t2 -> t1 = t2.
Proof.
  unfold show_uint16. intros H.
  assert (Hu : N.to_uint t1 = N.to_uint t2).
  { apply (f_equal NilEmpty.uint_of_string) in H.
    rewrite !NilEmpty.usu in H. now injection H. }
  apply (f_equal N.of_uint) in Hu.
  now rewrite !DecimalN.Unsigned.of_to in Hu.
Qed.

(** X14: the exception of a failed lookup tells which tag was looked up, and
    whether the integer overload of [query_by_tag] threw it ("... tag 513.")
    or one of the other two ("... tag: 513."): two lookups that throw the same
    exception looked the same tag up, on whatever stores, and no exception of
    the integer overload is one of the floating-point or string overload,
    which two throw the same one for the same tag. *)
Theorem read_error_identifies_tag
    (self1 self2 : ExifView) (t1 t2 : uint16) (e : ExifErr) :
  (query_by_tag_double self1 t1 = Throw e ->
   query_by_tag_double self2 t2 = Throw e -> t1 = t2)
  /\ (query_by_tag_int self1 t1 = Throw e ->
      query_by_tag_int self2 t2 = Throw e -> t1 = t2)
  /\ (query_by_tag_string self1 t1 = Throw e ->
      query_by_tag_string self2 t2 = Throw e -> t1 = t2)
  /\ (query_by_tag_int self1 t1 = Throw e ->
      query_by_tag_double self2 t2 <> Throw e
      /\ query_by_tag_string self2 t2 <> Throw e)
  /\ (query_by_tag_string self1 t1 = Throw e ->
      get_tag_value_double (m_data self2) t1 = None ->
      query_by_tag_double self2 t1 = Throw e).
Proof.
  unfold query_by_tag_double, query_by_tag_int, query_by_tag_string, vw_throw.
  split; [| split; [| split; [| split]]].
  - destruct (get_tag_value_double (m_data self1) t1); [discriminate |].
    destruct (get_tag_value_double (m_data self2) t2); [discriminate |].
    intros H1 H2. rewrite <- H1 in H2. injection H2 as H.
    now apply show_uint16_inj, append_dot_inj.
  - destruct (get_tag_value_int (m_data self1) t1); [discriminate |].
    destruct (get_tag_value_int (m_data self2) t2); [discriminate |].
    intros H1 H2. rewrite <- H1 in H2. injection H2 as H.
    now apply show_uint16_inj, append_dot_inj.
  - destruct (get_tag_value_string (m_data self1) t1); [discriminate |].
    destruct (get_tag_value_string (m_data self2) t2); [discriminate |].
    intros H1 H2. rewrite <- H1 in H2. injection H2 as H.
    now apply show_uint16_inj, append_dot_inj.
  - destruct (get_tag_value_int (m_data self1) t1); [discriminate |].
    intros H1. injection H1 as <-.
    destruct (get_tag_value_double (m_data self2) t2),
      (get_tag_value_string (m_data self2) t2);
      split; intros H; discriminate H.
  - destruct (get_tag_value_string (m_data self1) t1); [discriminate |].
    intros H1 ->. injection H1 as <-. reflexivity.
Qed.

(** ** The round trip between the aperture value and the f-number *)

Lemma is_finite_spec (x : float) :
  is_finite x
  = match Prim2SF x with
    | S754_zero _ | S754_finite _ _ _ => true
    | _ => false
    end.
Proof.
  unfold is_finite, is_nan, is_infinity. rewrite !eqb_spec, abs_spec.
  unfold SFeqb. destruct (Prim2SF x) as [s | s | | s m e]; simpl.
  - reflexivity.
  - destruct s; reflexivity.
  - reflexivity.
  - rewrite Z.compare_refl, Pos.compare_cont_refl. destruct s; reflexivity.
Qed.

(** Nothing is within a finite tolerance of a NaN or of an infinity, and
    neither a NaN nor an infinity is within a finite tolerance of anything. *)
Lemma within_finite (x y tol : float) :
  is_finite tol = true ->
  within x y tol = true ->
  is_finite x = true /\ is_finite y = true.
Proof.
  unfold within. rewrite !is_finite_spec, leb_spec, abs_spec, sub_spec.
  unfold SF64sub, SFsub, SFleb.
  destruct (Prim2SF tol) as [st | st | | st mt et]; try discriminate; intros _;
    destruct (Prim2SF x) as [sx | sx | | sx mx ex],
      (Prim2SF y) as [sy | sy | | sy my ey];
    try (intros _; split; reflexivity);
    simpl; try discriminate;
    destruct sx, sy; simpl; discriminate.
Qed.


End Properties.

(** * The worked stores, checked *)

Section Worked.

Import Example.
Open Scope float_scope.

Lemma f_number_fallback_witness :
  get_f_number direct_store = Return 4
  /\ get_f_number apex_store = Return 4
  /\ get_f_number empty_store = Throw (err_read EXIF_ApertureValue).
Proof.
  split; [| split].
  - destruct (f_number_fallback direct_store) as [H _]. apply H. reflexivity.
  - destruct (f_number_fallback apex_store) as [_ H].
    destruct (H eq_refl) as (_ & H4 & _).
    destruct (H4 eq_refl) as [_ Hpow]. apply Hpow. reflexivity.
  - destruct (f_number_fallback empty_store) as [_ H].
    destruct (H eq_refl) as (_ & _ & Hnone). apply Hnone. reflexivity.
Defined.

Lemma exposure_value_sum_witness :
  get_exposure_value apex_store = Return 12
  /\ get_exposure_value film_store = Return 6
  /\ throws (get_exposure_value brightness_store) = true.
Proof.
  split; [| split].
  - destruct (exposure_value_sum apex_store) as (_ & _ & _ & H).
    apply H; reflexivity.
  - destruct (exposure_value_sum film_store) as (H & _).
    destruct (H 2 4 eq_refl eq_refl) as [Hlr _]. exact Hlr.
  - destruct (exposure_value_sum brightness_store) as (_ & H & _).
    rewrite H. reflexivity.
Defined.

Lemma average_luminance_formula_witness :
  get_average_luminance direct_store = Return 200
  /\ get_average_luminance apex_store = Throw err_luminance
  /\ get_average_luminance empty_store = Throw err_luminance.
Proof.
  split; [| split].
  - destruct (average_luminance_formula direct_store) as (_ & H & _).
    apply H; reflexivity.
  - destruct (average_luminance_formula apex_store) as (_ & _ & H & _).
    apply H; reflexivity.
  - destruct (average_luminance_formula empty_store) as (_ & _ & H & _).
    apply H; reflexivity.
Defined.

Lemma luminance_value_fallback_witness :
  get_luminance_value brightness_store = Return 7.5
  /\ get_luminance_value film_store = Return 1
  /\ get_luminance_value apex_store = Throw err_brightness.
Proof.
  split; [| split].
  - destruct (luminance_value_fallback brightness_store) as (H & _).
    apply H; reflexivity.
  - destruct (luminance_value_fallback film_store) as (_ & H & _).
    destruct (H eq_refl) as [Hsum _].
    apply (Hsum 4 2 5); reflexivity.
  - destruct (luminance_value_fallback apex_store) as (_ & H & _).
    destruct (H eq_refl) as [_ Hthrow]. apply Hthrow; reflexivity.
Defined.

Lemma average_luminance_unguarded_division_witness :
  get_average_luminance zero_time_store = Return infinity
  /\ throws (get_average_luminance zero_time_store) = false
  /\ is_finite infinity = false.
Proof.
  exact (average_luminance_unguarded_division (tags := exif22) zero_time_store 4 0 100
           eq_refl eq_refl eq_refl eq_refl).
Defined.

Lemma focal_length_35mm_equiv_value_witness :
  get_focal_length_35mm_equiv (film35_store 35) = Return 35
  /\ get_focal_length_35mm_equiv (film35_store 0)
     = compute_from_other_statistics (film35_store 0)
  /\ get_focal_length_35mm_equiv (sensor_store 3%Z)
     = Return (50 * sqrt (36 * 36 + 24 * 24) / hypot (10 / 4000 * 4000) (10 / 3000 * 3000))
  /\ get_focal_length_35mm_equiv (sensor_store 2%Z)
     = Return (50 * sqrt 1872 / hypot 25.4 25.4).
Proof.
  split; [| split; [| split]].
  - destruct (focal_length_35mm_equiv_value (film35_store 35)) as (H & _).
    apply H; reflexivity.
  - destruct (focal_length_35mm_equiv_value (film35_store 0)) as (_ & H & _).
    apply H. left. reflexivity.
  - destruct (focal_length_35mm_equiv_value (sensor_store 3%Z)) as (_ & _ & H).
    destruct (H eq_refl) as [Hgen _]. apply Hgen; reflexivity.
  - destruct (focal_length_35mm_equiv_value (sensor_store 2%Z)) as (_ & _ & H).
    destruct (H eq_refl) as [_ Hex]. apply Hex; reflexivity.
Defined.

Lemma resolution_unit_cases_witness :
  get_focal_length_35mm_equiv unitless_sensor_store
  = get_focal_length_35mm_equiv (sensor_store 2%Z)
  /\ focal_plane_resolution_unit_in_mm (sensor_store 3%Z) = Return 10
  /\ get_focal_length_35mm_equiv (sensor_store 5%Z) = Throw err_resolution_unit.
Proof.
  split; [| split].
  - destruct (resolution_unit_cases (tags := exif22) unitless_sensor_store 50 4000 3000 4000 3000
                eq_refl eq_refl eq_refl eq_refl eq_refl eq_refl eq_refl eq_refl)
      as (H & _).
    destruct (H eq_refl) as [_ ->].
    destruct (resolution_unit_cases (tags := exif22) (sensor_store 2%Z) 50 4000 3000 4000 3000
                eq_refl eq_refl eq_refl eq_refl eq_refl eq_refl eq_refl eq_refl)
      as (_ & H2 & _).
    destruct (H2 eq_refl) as [_ ->]. reflexivity.
  - destruct (resolution_unit_cases (tags := exif22) (sensor_store 3%Z) 50 4000 3000 4000 3000
                eq_refl eq_refl eq_refl eq_refl eq_refl eq_refl eq_refl eq_refl)
      as (_ & _ & H & _).
    apply H. reflexivity.
  - destruct (resolution_unit_cases (tags := exif22) (sensor_store 5%Z) 50 4000 3000 4000 3000
                eq_refl eq_refl eq_refl eq_refl eq_refl eq_refl eq_refl eq_refl)
      as (_ & _ & _ & _ & H & _).
    apply H. reflexivity.
Defined.

(** C4, as it was stated, fails on the store that holds FocalLength,
    PixelXDimension, PixelYDimension and a FocalPlaneXResolution of 0 and no
    FocalPlaneYResolution: a mandatory entry is missing, and the exception is
    "Illegal value for FocalPlaneXResolution", which is not of the kind
    TagNotFound. *)
Lemma missing_y_resolution_not_tag_not_found :
  takes_computed_path (no_y_resolution_store 0) = true
  /\ In EXIF_FocalPlaneYResolution mandatory_tags
  /\ get_tag_value_double (m_data (no_y_resolution_store 0))
       EXIF_FocalPlaneYResolution = None
  /\ get_focal_length_35mm_equiv (no_y_resolution_store 0) = Throw err_x_resolution
  /\ error_kind err_x_resolution = Some InvalidValue
  /\ ~ fails_with_tag_not_found (no_y_resolution_store 0).
Proof.
  split; [reflexivity |].
  split; [simpl; tauto |].
  split; [reflexivity |].
  split; [reflexivity |].
  split; [reflexivity |].
  intros [e [H Hkind]].
  change (get_focal_length_35mm_equiv (no_y_resolution_store 0))
    with (@Throw double err_x_resolution) in H.
  injection H as <-. discriminate Hkind.
Qed.

Lemma mandatory_tags_missing_witness :
  fails_with_tag_not_found (no_y_resolution_store 4000)
  /\ fails_with_tag_not_found empty_store
  /\ get_focal_length_35mm_equiv (no_y_resolution_store (-1)) = Throw err_x_resolution.
Proof.
  assert (Hy : forall x,
             exists tag, In tag mandatory_tags
                         /\ get_tag_value_double (m_data (no_y_resolution_store x)) tag
                            = None).
  { intros x. exists EXIF_FocalPlaneYResolution. split; [simpl; tauto | reflexivity]. }
  split; [| split].
  - destruct (mandatory_tags_missing (tags := exif22) (no_y_resolution_store 4000) eq_refl (Hy 4000))
      as (_ & H & _).
    apply H. do 3 right. intros xr Hxr. injection Hxr as <-. reflexivity.
  - assert (He : exists tag, In tag mandatory_tags
                             /\ get_tag_value_double (m_data empty_store) tag = None).
    { exists EXIF_FocalLength. split; [simpl; tauto | reflexivity]. }
    destruct (mandatory_tags_missing (tags := exif22) empty_store eq_refl He) as (_ & H & _).
    apply H. left. reflexivity.
  - destruct (mandatory_tags_missing (tags := exif22) (no_y_resolution_store (-1)) eq_refl (Hy (-1)))
      as (_ & _ & H).
    apply (H 50 4000 3000 (-1)); reflexivity.
Defined.

Lemma nonpositive_35mm_entry_is_absent_witness :
  get_focal_length_35mm_equiv (film35_store (-35))
  = get_focal_length_35mm_equiv
      (without_double EXIF_FocalLengthIn35mmFilm (film35_store (-35)))
  /\ get_focal_length_35mm_equiv (film35_store nan)
     = compute_from_other_statistics (film35_store nan).
Proof.
  assert (Hnot : ~ In EXIF_FocalLengthIn35mmFilm mandatory_tags).
  { simpl. intros [H | [H | [H | [H | [H | []]]]]]; discriminate H. }
  split.
  - destruct (nonpositive_35mm_entry_is_absent (tags := exif22) (film35_store (-35)) (-35) eq_refl)
      as [H _].
    destruct (H eq_refl) as [_ Hsame]. apply Hsame. exact Hnot.
  - destruct (nonpositive_35mm_entry_is_absent (tags := exif22) (film35_store nan) nan eq_refl)
      as [_ H].
    destruct (H eq_refl) as [Hpath _]. exact Hpath.
Defined.

Lemma exposure_time_fallback_witness :
  get_exposure_time direct_store = Return 0.01
  /\ get_exposure_time shutter_store = Return 0.125
  /\ get_exposure_time empty_store = Throw (err_read EXIF_ShutterSpeedValue).
Proof.
  split; [| split].
  - destruct (exposure_time_fallback (tags := exif22) direct_store) as [H _].
    apply H. reflexivity.
  - destruct (exposure_time_fallback (tags := exif22) shutter_store) as [_ H].
    destruct (H eq_refl) as [Hs _]. apply (Hs 3). reflexivity.
  - destruct (exposure_time_fallback (tags := exif22) empty_store) as [_ H].
    destruct (H eq_refl) as [_ Hn]. apply Hn. reflexivity.
Defined.

Lemma iso_fallback_witness :
  get_iso direct_store = Return 100
  /\ get_iso film_store = Return 100
  /\ get_iso apex_store = Throw (err_read EXIF_ExposureIndex).
Proof.
  split; [| split].
  - destruct (iso_fallback (tags := exif22) direct_store) as [H _].
    apply H. reflexivity.
  - destruct (iso_fallback (tags := exif22) film_store) as [_ H].
    destruct (H eq_refl) as [Hs _]. apply Hs. reflexivity.
  - destruct (iso_fallback (tags := exif22) apex_store) as [_ H].
    destruct (H eq_refl) as [_ Hn]. apply Hn. reflexivity.
Defined.

Lemma aperture_value_fallback_witness :
  get_aperture_value apex_store = Return 4
  /\ get_aperture_value film_store = Return 4
  /\ get_aperture_value empty_store = Throw (err_read EXIF_FNumber).
Proof.
  split; [| split].
  - destruct (aperture_value_fallback (tags := exif22) apex_store) as [H _].
    apply H. reflexivity.
  - destruct (aperture_value_fallback (tags := exif22) film_store) as [_ H].
    destruct (H eq_refl) as [Hs _]. apply (Hs 4). reflexivity.
  - destruct (aperture_value_fallback (tags := exif22) empty_store) as [_ H].
    destruct (H eq_refl) as [_ Hn]. apply Hn. reflexivity.
Defined.

Lemma time_value_fallback_witness :
  get_time_value apex_store = Return 8
  /\ get_time_value film_store = Return 2
  /\ get_time_value empty_store = Throw (err_read EXIF_ExposureTime).
Proof.
  split; [| split].
  - destruct (time_value_fallback (tags := exif22) apex_store) as [H _].
    apply H. reflexivity.
  - destruct (time_value_fallback (tags := exif22) film_store) as [_ H].
    destruct (H eq_refl) as [Hs _]. apply (Hs 0.25). reflexivity.
  - destruct (time_value_fallback (tags := exif22) empty_store) as [_ H].
    destruct (H eq_refl) as [_ Hn]. apply Hn. reflexivity.
Defined.

Lemma availability_coincides_witness :
  throws (get_luminance_value film_store) = throws (get_average_luminance film_store)
  /\ throws (get_luminance_value apex_store)
     = throws (get_average_luminance apex_store).
Proof.
  split.
  - destruct (availability_coincides (tags := exif22) film_store)
      as (_ & _ & _ & _ & H).
    apply H. reflexivity.
  - destruct (availability_coincides (tags := exif22) apex_store)
      as (_ & _ & _ & _ & H).
    apply H. reflexivity.
Defined.

Lemma film_speed_value_of_iso_witness :
  get_film_speed_value film_store = Return 5
  /\ get_film_speed_value apex_store = Throw (err_read EXIF_ExposureIndex).
Proof.
  split.
  - destruct (film_speed_value_of_iso (tags := exif22) film_store) as (H & _).
    apply (H 100). reflexivity.
  - destruct (film_speed_value_of_iso (tags := exif22) apex_store) as (_ & _ & H).
    apply H; reflexivity.
Defined.

Lemma chain_failure_names_alternate_witness :
  get_tag_value_double (m_data brightness_store) EXIF_FNumber = None
  /\ get_tag_value_double (m_data brightness_store) EXIF_ApertureValue = None
  /\ err_read EXIF_ApertureValue = err_read EXIF_ApertureValue.
Proof.
  destruct (chain_failure_names_alternate (tags := exif22) brightness_store
              (err_read EXIF_ApertureValue)) as (H & _).
  apply H. reflexivity.
Defined.

Lemma composite_failures_witness :
  (err_read EXIF_ExposureTime = err_read EXIF_ExposureTime
   \/ err_read EXIF_ExposureTime = err_read EXIF_FNumber)
  /\ error_kind (err_read EXIF_ExposureTime) = Some TagNotFound.
Proof.
  destruct (composite_failures (tags := exif22) brightness_store
              (err_read EXIF_ExposureTime)) as (H & _).
  apply H. left. reflexivity.
Defined.

Lemma focal_length_failures_enumerated_witness :
  error_kind err_resolution_unit = Some TagNotFound
  \/ error_kind err_resolution_unit = Some InvalidValue.
Proof.
  destruct (focal_length_failures_enumerated (tags := exif22) (sensor_store 5%Z)
              err_resolution_unit eq_refl) as (_ & H & _).
  exact H.
Defined.

Lemma focal_length_test_order_witness :
  get_focal_length_35mm_equiv negative_y_store = Throw err_y_resolution
  /\ get_focal_length_35mm_equiv pixelless_store = Throw err_diagonal.
Proof.
  split.
  - destruct (focal_length_test_order (tags := exif22) negative_y_store
                50 4000 3000 4000 eq_refl eq_refl eq_refl eq_refl eq_refl)
      as (_ & H & _).
    destruct (H eq_refl (-3000) eq_refl) as [Hy _]. apply Hy. reflexivity.
  - destruct (focal_length_test_order (tags := exif22) pixelless_store
                50 0 0 4000 eq_refl eq_refl eq_refl eq_refl eq_refl)
      as (_ & H & _).
    destruct (H eq_refl 3000 eq_refl) as [_ Hd].
    apply (Hd eq_refl 25.4); reflexivity.
Defined.

Lemma focal_length_result_inversion_witness :
  (get_tag_value_double (m_data (film35_store 35)) EXIF_FocalLengthIn35mmFilm = Some 35
   /\ (0 <? 35) = true)
  \/ (takes_computed_path (film35_store 35) = true
      /\ exists fl px py xr yr unit_mm,
          get_tag_value_double (m_data (film35_store 35)) EXIF_FocalLength = Some fl
          /\ get_tag_value_double (m_data (film35_store 35)) EXIF_PixelXDimension = Some px
          /\ get_tag_value_double (m_data (film35_store 35)) EXIF_PixelYDimension = Some py
          /\ get_tag_value_double (m_data (film35_store 35)) EXIF_FocalPlaneXResolution
             = Some xr
          /\ get_tag_value_double (m_data (film35_store 35)) EXIF_FocalPlaneYResolution
             = Some yr
          /\ (xr <=? 0) = false
          /\ (yr <=? 0) = false
          /\ (unit_mm = 25.4 \/ unit_mm = 10)
          /\ (hypot (unit_mm / xr * px) (unit_mm / yr * py) =? 0) = false
          /\ 35 = fl * sqrt (36 * 36 + 24 * 24)
                  / hypot (unit_mm / xr * px) (unit_mm / yr * py)).
Proof.
  exact (focal_length_result_inversion (tags := exif22) (film35_store 35) 35 eq_refl).
Defined.

Lemma resolution_rejected_iff_witness :
  get_focal_length_35mm_equiv (no_y_resolution_store (-0)) = Throw err_x_resolution
  /\ get_focal_length_35mm_equiv (no_y_resolution_store nan) <> Throw err_x_resolution
  /\ get_focal_length_35mm_equiv negative_y_store = Throw err_y_resolution.
Proof.
  split; [| split].
  - destruct (resolution_rejected_iff (tags := exif22) (no_y_resolution_store (-0))
                50 4000 3000 (-0) eq_refl eq_refl eq_refl eq_refl eq_refl)
      as [[_ H] _].
    apply H. split; reflexivity.
  - destruct (resolution_rejected_iff (tags := exif22) (no_y_resolution_store nan)
                50 4000 3000 nan eq_refl eq_refl eq_refl eq_refl eq_refl)
      as [[H _] _].
    intros Hx. destruct (H Hx) as [_ Hnan]. discriminate Hnan.
  - destruct (resolution_rejected_iff (tags := exif22) negative_y_store
                50 4000 3000 4000 eq_refl eq_refl eq_refl eq_refl eq_refl)
      as [_ H].
    apply (H (-3000) eq_refl); [left; reflexivity | split; reflexivity].
Defined.

Lemma luminance_from_exposure_value_witness :
  get_luminance_value film_store = Return (6 - 5)
  /\ get_exposure_value_rl film_store = Return 6.
Proof.
  exact (luminance_from_exposure_value (tags := exif22) film_store 6 5
           eq_refl eq_refl eq_refl).
Defined.

Lemma read_error_identifies_tag_witness :
  EXIF_FNumber = EXIF_FNumber
  /\ query_by_tag_double direct_store EXIF_FocalPlaneResolutionUnit
     <> Throw (err_read_int EXIF_FocalPlaneResolutionUnit).
Proof.
  split.
  - destruct (read_error_identifies_tag empty_store apex_store
                EXIF_FNumber EXIF_FNumber (err_read EXIF_FNumber)) as (H & _).
    apply H; reflexivity.
  - destruct (read_error_identifies_tag empty_store direct_store
                EXIF_FocalPlaneResolutionUnit EXIF_FocalPlaneResolutionUnit
                (err_read_int EXIF_FocalPlaneResolutionUnit)) as (_ & _ & _ & H & _).
    destruct (H eq_refl) as [Hd _]. exact Hd.
Defined.



End Worked.
